(** * captcha-auth-lambda: the reCAPTCHA Lambda authorizer of src/index.js

    A shallow embedding of [exports.handler], [getParam], [genPolicy] and
    [verifyCaptcha], together with the parts of the JavaScript platform the
    handler leans on ([JSON.parse], property access, truthiness, template
    strings), and the properties of the specification settled against it. *)

From Stdlib Require Import String Ascii List ZArith NArith Bool Lia DecimalString.
Import ListNotations.
Open Scope string_scope.

#[local] Set Warnings "-register-all".

(** ** JavaScript values produced by [JSON.parse] *)

(** A JSON number keeps its decimal reading [m * 10^e]; the only thing the
    handler observes of a number is whether the double it denotes is zero.
    An object keeps its members in source order: a repeated key is looked up
    at its last occurrence, as [JSON.parse] overwrites earlier ones. *)
Inductive JsValue : Type :=
| JNull
| JBool (b : bool)
| JNumber (m e : Z)
| JString (s : string)
| JArray (elems : list JsValue)
| JObject (members : list (string * JsValue)).

Module Json.

(** *** Lexical classes *)

Definition is_ws (c : ascii) : bool :=
  match c with
  | " "%char | "009"%char | "010"%char | "013"%char => true
  | _ => false
  end.

Definition digit_of (c : ascii) : option Z :=
  let n := Z.of_N (N_of_ascii c) in
  if ((48 <=? n) && (n <=? 57))%Z then Some (n - 48)%Z else None.

Definition hex_of (c : ascii) : option N :=
  let n := N_of_ascii c in
  if ((48 <=? n) && (n <=? 57))%N then Some (n - 48)%N
  else if ((65 <=? n) && (n <=? 70))%N then Some (n - 55)%N
  else if ((97 <=? n) && (n <=? 102))%N then Some (n - 87)%N
  else None.

(** The bytes of one UTF-16 code unit written as [\uXXXX]. Code units below
    128 are the ASCII character itself, which is what key comparison with
    ["success"] and emptiness need. *)
Definition utf8 (u : N) : list ascii :=
  if (u <? 128)%N then [ascii_of_N u]
  else if (u <? 2048)%N then
    [ascii_of_N (192 + u / 64); ascii_of_N (128 + u mod 64)]
  else
    [ascii_of_N (224 + u / 4096); ascii_of_N (128 + (u / 64) mod 64);
     ascii_of_N (128 + u mod 64)].

(** *** Numbers

    An optional minus; a single zero or a non-zero digit followed by digits;
    optionally a point and at least one digit; optionally e or E, an
    optional sign and at least one digit. *)

Inductive NumPhase : Type :=
| NMinus | NZero | NInt | NDot | NFrac | NE | NESign | NExp.

Record Num : Type := mkNum {
  phase : NumPhase;
  neg : bool;      (* a leading minus was read *)
  mant : Z;        (* the digits of the integer and fraction parts *)
  scale : Z;       (* how many of them are fraction digits *)
  eneg : bool;     (* the exponent has a minus *)
  expo : Z         (* the exponent's digits *)
}.

Definition accepting (n : Num) : bool :=
  match phase n with
  | NZero | NInt | NFrac | NExp => true
  | NMinus | NDot | NE | NESign => false
  end.

(** [num_step n c] extends the number by [c], or is [None] when [c] cannot
    continue it. *)
Definition num_step (n : Num) (c : ascii) : option Num :=
  match digit_of c with
  | Some d =>
      match phase n with
      | NMinus =>
          Some (mkNum (if (d =? 0)%Z then NZero else NInt)
                  (neg n) d 0 false 0)
      | NZero => None
      | NInt =>
          Some (mkNum NInt (neg n) (mant n * 10 + d) 0 false 0)
      | NDot | NFrac =>
          Some (mkNum NFrac (neg n) (mant n * 10 + d) (scale n + 1) false 0)
      | NE | NESign | NExp =>
          Some (mkNum NExp (neg n) (mant n) (scale n) (eneg n)
                  (expo n * 10 + d))
      end
  | None =>
      match c, phase n with
      | "."%char, (NZero | NInt) =>
          Some (mkNum NDot (neg n) (mant n) 0 false 0)
      | ("e"%char | "E"%char), (NZero | NInt | NFrac) =>
          Some (mkNum NE (neg n) (mant n) (scale n) false 0)
      | "+"%char, NE =>
          Some (mkNum NESign (neg n) (mant n) (scale n) false 0)
      | "-"%char, NE =>
          Some (mkNum NESign (neg n) (mant n) (scale n) true 0)
      | _, _ => None
      end
  end.

Definition num_value (n : Num) : JsValue :=
  JNumber (if neg n then - mant n else mant n)
          ((if eneg n then - expo n else expo n) - scale n).

(** *** The parser: one step per character, an explicit stack of open
    containers *)

Inductive Frame : Type :=
| FArray (done : list JsValue)
| FObject (done : list (string * JsValue)) (key : option string).

Inductive Expect : Type :=
| XValue          (* a value starts here *)
| XValueOrClose   (* just after an opening bracket *)
| XKeyOrClose     (* just after an opening brace *)
| XKey            (* after a comma inside an object *)
| XColon          (* after a member's key *)
| XCommaOrClose   (* after a value inside a container *)
| XEnd (v : JsValue). (* the text's value is complete *)

Inductive Esc : Type :=
| ENone
| EBackslash
| EUni (k : nat) (code : N).   (* k hex digits of a \u escape read so far *)

Inductive Lex : Type :=
| LNone
| LStr (acc : list ascii) (esc : Esc)    (* acc: newest character first *)
| LNum (n : Num)
| LLit (rest : list ascii) (v : JsValue).

Record PState : Type := mkP {
  stack : list Frame;
  expect : Expect;
  lexs : Lex
}.

Definition initial : PState := mkP [] XValue LNone.

Definition string_of_rev (acc : list ascii) : string :=
  string_of_list_ascii (rev acc).

(** A complete value goes to the innermost open container, or ends the text. *)
Definition push_value (v : JsValue) (stk : list Frame) : option PState :=
  match stk with
  | [] => Some (mkP [] (XEnd v) LNone)
  | FArray done :: r => Some (mkP (FArray (v :: done) :: r) XCommaOrClose LNone)
  | FObject done (Some k) :: r =>
      Some (mkP (FObject ((k, v) :: done) None :: r) XCommaOrClose LNone)
  | FObject _ None :: _ => None
  end.

Definition push_key (k : string) (stk : list Frame) : option PState :=
  match stk with
  | FObject done None :: r => Some (mkP (FObject done (Some k) :: r) XColon LNone)
  | _ => None
  end.

Definition close_array (stk : list Frame) : option PState :=
  match stk with
  | FArray done :: r => push_value (JArray (rev done)) r
  | _ => None
  end.

Definition close_object (stk : list Frame) : option PState :=
  match stk with
  | FObject done None :: r => push_value (JObject (rev done)) r
  | _ => None
  end.

Definition start_value (stk : list Frame) (c : ascii) : option PState :=
  match c with
  | "{"%char => Some (mkP (FObject [] None :: stk) XKeyOrClose LNone)
  | "["%char => Some (mkP (FArray [] :: stk) XValueOrClose LNone)
  | "034"%char => Some (mkP stk XValue (LStr [] ENone))
  | "-"%char => Some (mkP stk XValue (LNum (mkNum NMinus true 0 0 false 0)))
  | "t"%char => Some (mkP stk XValue (LLit ["r"; "u"; "e"]%char (JBool true)))
  | "f"%char => Some (mkP stk XValue (LLit ["a"; "l"; "s"; "e"]%char (JBool false)))
  | "n"%char => Some (mkP stk XValue (LLit ["u"; "l"; "l"]%char JNull))
  | _ =>
      match digit_of c with
      | Some d =>
          Some (mkP stk XValue
                  (LNum (mkNum (if (d =? 0)%Z then NZero else NInt)
                           false d 0 false 0)))
      | None => None
      end
  end.

(** A character met outside any token. *)
Definition plain_step (st : PState) (c : ascii) : option PState :=
  if is_ws c then Some st
  else
    match expect st with
    | XValue => start_value (stack st) c
    | XValueOrClose =>
        if Ascii.eqb c "]" then close_array (stack st)
        else start_value (stack st) c
    | XKeyOrClose =>
        if Ascii.eqb c "034" then Some (mkP (stack st) XKey (LStr [] ENone))
        else if Ascii.eqb c "}" then close_object (stack st)
        else None
    | XKey =>
        if Ascii.eqb c "034" then Some (mkP (stack st) XKey (LStr [] ENone))
        else None
    | XColon =>
        if Ascii.eqb c ":" then Some (mkP (stack st) XValue LNone) else None
    | XCommaOrClose =>
        if Ascii.eqb c "," then
          match stack st with
          | FArray _ :: _ => Some (mkP (stack st) XValue LNone)
          | FObject _ _ :: _ => Some (mkP (stack st) XKey LNone)
          | [] => None
          end
        else if Ascii.eqb c "]" then close_array (stack st)
        else if Ascii.eqb c "}" then close_object (stack st)
        else None
    | XEnd _ => None
    end.

(** The closing quote: a key in key position, a value elsewhere. *)
Definition end_string (st : PState) (acc : list ascii) : option PState :=
  match expect st with
  | XKey | XKeyOrClose => push_key (string_of_rev acc) (stack st)
  | _ => push_value (JString (string_of_rev acc)) (stack st)
  end.

Definition string_step (st : PState) (acc : list ascii) (esc : Esc) (c : ascii)
  : option PState :=
  let continue acc' esc' := Some (mkP (stack st) (expect st) (LStr acc' esc')) in
  match esc with
  | ENone =>
      if Ascii.eqb c "034" then end_string st acc
      else if Ascii.eqb c "\" then continue acc EBackslash
      else if (N_of_ascii c <? 32)%N then None
      else continue (c :: acc) ENone
  | EBackslash =>
      match c with
      | "034"%char | "\"%char | "/"%char => continue (c :: acc) ENone
      | "b"%char => continue ("008"%char :: acc) ENone
      | "f"%char => continue ("012"%char :: acc) ENone
      | "n"%char => continue ("010"%char :: acc) ENone
      | "r"%char => continue ("013"%char :: acc) ENone
      | "t"%char => continue ("009"%char :: acc) ENone
      | "u"%char => continue acc (EUni 0 0)
      | _ => None
      end
  | EUni k code =>
      match hex_of c with
      | Some h =>
          let code' := (code * 16 + h)%N in
          if Nat.eqb k 3 then continue (rev (utf8 code') ++ acc)%list ENone
          else continue acc (EUni (S k) code')
      | None => None
      end
  end.

Definition step (st : PState) (c : ascii) : option PState :=
  match lexs st with
  | LNone => plain_step st c
  | LStr acc esc => string_step st acc esc c
  | LNum n =>
      match num_step n c with
      | Some n' => Some (mkP (stack st) (expect st) (LNum n'))
      | None =>
          if accepting n then
            match push_value (num_value n) (stack st) with
            | Some st' => plain_step st' c
            | None => None
            end
          else None
      end
  | LLit rest v =>
      match rest with
      | x :: r =>
          if Ascii.eqb c x then
            match r with
            | [] => push_value v (stack st)
            | _ :: _ => Some (mkP (stack st) (expect st) (LLit r v))
            end
          else None
      | [] => None
      end
  end.

Fixpoint feed (st : PState) (cs : list ascii) : option PState :=
  match cs with
  | [] => Some st
  | c :: r =>
      match step st c with
      | Some st' => feed st' r
      | None => None
      end
  end.

(** End of text: a number may end here, nothing else may be open. *)
Definition finish (st : PState) : option JsValue :=
  let closed :=
    match lexs st with
    | LNone => Some st
    | LNum n => if accepting n then push_value (num_value n) (stack st) else None
    | LStr _ _ | LLit _ _ => None
    end in
  match closed with
  | Some (mkP [] (XEnd v) LNone) => Some v
  | _ => None
  end.

(** [JSON.parse text]: [None] stands for the [SyntaxError] it throws. *)
Definition parse (text : string) : option JsValue :=
  match feed initial (list_ascii_of_string text) with
  | Some st => finish st
  | None => None
  end.

End Json.



(** ** The JavaScript operations the handler applies to the parsed payload *)

(** [JSON.parse(result)] where [result] may still be [undefined]: the argument
    is first converted to a string, and [undefined] reads as that word. *)
Definition js_string (v : option string) : string :=
  match v with
  | Some s => s
  | None => "undefined"
  end.

Definition JSON_parse (result : option string) : option JsValue :=
  Json.parse (js_string result).

(** An own property of an object literal: the last member written under the
    key. *)
Fixpoint get_own (k : string) (members : list (string * JsValue)) : option JsValue :=
  match members with
  | [] => None
  | (k', v) :: rest =>
      match get_own k rest with
      | Some v' => Some v'
      | None => if String.eqb k' k then Some v else None
      end
  end.

(** [v.success]: [None] outside is the [TypeError] of reading a property of
    [null]; [Some None] is [undefined] (a missing key, or a boolean, number,
    string or array, none of which has such a property). *)
Definition get_success (v : JsValue) : option (option JsValue) :=
  match v with
  | JNull => None
  | JObject members => Some (get_own "success" members)
  | JBool _ | JNumber _ _ | JString _ | JArray _ => Some None
  end.

(** The double nearest to [m * 10^e] is zero exactly when [|m * 10^e|] is at
    most [2^-1075], half the least positive double (the tie goes to the even
    neighbour, zero). Node reads a decimal literal as the nearest double. *)
Definition rounds_to_zero (m e : Z) : bool :=
  ((m =? 0) || ((e <? 0) && (Z.abs m * 2 ^ 1075 <=? 10 ^ (- e))))%Z.

(** [if (success)]: JavaScript truthiness. *)
Definition ToBoolean (v : option JsValue) : bool :=
  match v with
  | None => false
  | Some JNull => false
  | Some (JBool b) => b
  | Some (JNumber m e) => negb (rounds_to_zero m e)
  | Some (JString s) => negb (String.eqb s "")
  | Some (JArray _) => true
  | Some (JObject _) => true
  end.

(** ** Data of the handler *)

(** The authorizer event: [event.authorizationToken] may be missing. *)
Record Event : Type := mkEvent {
  authorizationToken : option string;
  methodArn : string
}.

Record Stmt : Type := mkStmt {
  Action : string;
  Effect : string;
  Resource : string
}.

Record Policy : Type := mkPolicy {
  Version : string;
  Statement : list Stmt
}.

Record Context : Type := mkContext {
  simpleAuth : bool
}.

Record Response : Type := mkResponse {
  policyDocument : Policy;
  context : Context
}.

(** The two ways the handler calls [callback]: [callback(err)] and
    [callback(null, response)]. *)
Inductive CallbackArgs : Type :=
| CbError (err : string)
| CbResult (response : Response).

Record RequestOptions : Type := mkOptions {
  hostname : string;
  port : Z;
  path : string;
  method : string;
  headers : list (string * string)
}.

(** What [parameterStore.getParameter] hands to its callback. [data.Parameter]
    and its [Value] are optional in the SDK's result. *)
Record SsmParameter : Type := mkSsmParameter {
  Value : option string
}.

Record GetParameterResult : Type := mkData {
  data_Parameter : option SsmParameter
}.

Inductive SsmReply : Type :=
| SsmErr (err : string)                (* callback(err): the lookup failed *)
| SsmData (data : GetParameterResult)  (* callback(null, data) *)
| SsmSilent.                           (* the callback is never run *)

(** What the https layer does with a request, in order of occurrence. *)
Inductive NetEvent : Type :=
| NetResponse (statusCode : N)   (* the response callback runs *)
| NetData (d : string)           (* a 'data' event of the response *)
| NetError (error : string).     (* an 'error' event of the request; [error]
                                    is the error as string concatenation
                                    prints it *)

(** The collaborators of one invocation. [process_env] is the process
    environment, the only configuration surface a Lambda function has; the
    handler never reads it. *)
Record Env : Type := mkEnv {
  process_env : list (string * string);
  getParameter : string -> SsmReply;
  https_request : RequestOptions -> list NetEvent
}.

(** ** Effects: a trace of what the invocation did, and how it ended *)

Inductive Obs : Type :=
| SsmGetParameter (Name : string)
| HttpsRequest (options : RequestOptions)
| ConsoleLog (line : string)
| Callback (args : CallbackArgs).

Inductive JsError : Type :=
| StoreError (err : string)    (* the err of a rejected getParam *)
| TypeError
| SyntaxError.

(** How an [async] computation ends: with a value, with a thrown error (the
    promise rejects), or never (it awaits a promise that does not settle). *)
Inductive Step (A : Type) : Type :=
| Ret (a : A)
| Throw (e : JsError)
| Hang.

Arguments Ret {A} a.
Arguments Throw {A} e.
Arguments Hang {A}.

Definition M (A : Type) : Type := (list Obs * Step A)%type.

Definition ret {A : Type} (a : A) : M A := ([], Ret a).

Definition throw {A : Type} (e : JsError) : M A := ([], Throw e).

Definition hang {A : Type} : M A := ([], Hang).

Definition emit (o : Obs) : M unit := ([o], Ret tt).

Definition bind {A B : Type} (m : M A) (k : A -> M B) : M B :=
  match m with
  | (t, Ret a) => let (t', r) := k a in (t ++ t', r)%list
  | (t, Throw e) => (t, Throw e)
  | (t, Hang) => (t, Hang)
  end.

Declare Scope js_scope.
Delimit Scope js_scope with js.
Notation "x <- m ;; k" := (bind m (fun x => k))
  (at level 61, m at next level, right associativity) : js_scope.
Notation "m ;; k" := (bind m (fun _ => k))
  (at level 61, right associativity) : js_scope.
Open Scope js_scope.

(** The state of a promise once its executor and the events have run. *)
Inductive Settled : Type :=
| Resolved (d : string)
| Rejected (error : string)
| Unsettled.

(** ** The functions of src/index.js *)

(** [getParam]: a promise over [parameterStore.getParameter({Name: param})],
    rejected with [err] or resolved with [data]; awaiting it throws or
    returns. *)
Definition getParam (env : Env) (param : string) : M GetParameterResult :=
  emit (SsmGetParameter param) ;;
  match getParameter env param with
  | SsmErr err => throw (StoreError err)
  | SsmData data => ret data
  | SsmSilent => hang
  end.

(** [data.Parameter.Value]; reading [Value] of a missing [Parameter] throws. *)
Definition Parameter_Value (data : GetParameterResult) : M (option string) :=
  match data_Parameter data with
  | Some p => ret (Value p)
  | None => throw TypeError
  end.

Definition genPolicy (effect resource : string) : Policy :=
  let stmt := {| Action := "execute-api:Invoke"; Effect := effect; Resource := resource |} in
  {| Version := "2012-10-17"; Statement := ([] ++ [stmt])%list |}.

Definition string_of_N (n : N) : string :=
  NilEmpty.string_of_uint (N.to_uint n).

(** The listeners of [verifyCaptcha]: the response callback logs the status
    code and only then listens for 'data'; the first chunk resolves the
    promise, an 'error' of the request rejects it. A settled promise ignores
    later calls of [resolve] and [reject], so the events after the settling
    one are not followed. With no settling event the promise stays pending:
    the request has no timeout. *)
Fixpoint listen (listening : bool) (events : list NetEvent) : M Settled :=
  match events with
  | [] => ret Unsettled
  | NetResponse statusCode :: rest =>
      emit (ConsoleLog ("statusCode: " ++ string_of_N statusCode)) ;;
      listen true rest
  | NetData d :: rest =>
      if listening then ret (Resolved d) else listen listening rest
  | NetError error :: _ => ret (Rejected error)
  end.

(** [verifyCaptcha]. The two credentials arrive as [Value]s, which may be
    [undefined]; the template string and [+] print them with [js_string]. *)
Definition verifyCaptcha (env : Env)
    (captcha_secret_key google_captch_verification_url : option string)
    (token : string) : M Settled :=
  let params := "?secret=" ++ js_string captcha_secret_key ++ "&response=" ++ token in
  let options :=
    {| hostname := "www.google.com";
       port := 443;
       path := js_string google_captch_verification_url ++ params;
       method := "POST";
       headers := [("Content-Type", "application/json")] |} in
  emit (HttpsRequest options) ;;
  listen false (https_request env options).

Definition callback (args : CallbackArgs) : M unit := emit (Callback args).

(** [!token] *)
Definition falsy (token : option string) : bool :=
  match token with
  | None => true
  | Some s => String.eqb s ""
  end.

(** [exports.handler]. The result is the trace of the invocation and the fate
    of the promise the async function returns: [Ret tt] when it fulfils,
    [Throw e] when it rejects with [e], [Hang] when it never settles. The
    module keeps nothing from one invocation to the next: [parameterStore] is
    a constant client and [result] is local to the call, so the handler reads
    its event and its collaborators and nothing else. *)
Definition handler (env : Env) (event : Event) : M unit :=
  let token := authorizationToken event in
  if falsy token then
    callback (CbError "Unauthorized")
  else
    captcha_secret_key <- getParam env "/google/captcha_secret_key" ;;
    google_captch_verification_url <-
      getParam env "/google/google_captch_verification_url" ;;
    secret <- Parameter_Value captcha_secret_key ;;
    url <- Parameter_Value google_captch_verification_url ;;
    settled <- verifyCaptcha env secret url (js_string token) ;;
    result <- match settled with
              | Resolved r => ret (Some r)
              | Rejected e => emit (ConsoleLog ("error " ++ e)) ;; ret None
              | Unsettled => hang
              end ;;
    parsed <- match JSON_parse result with
              | Some v => ret v
              | None => throw SyntaxError
              end ;;
    success <- match get_success parsed with
               | Some s => ret s
               | None => throw TypeError
               end ;;
    if ToBoolean success then
      let policy := genPolicy "allow" (methodArn event) in
      let context := {| simpleAuth := true |} in
      let response := {| policyDocument := policy; context := context |} in
      callback (CbResult response)
    else
      callback (CbError "Unauthorized").

(** ** Observations on a trace *)

Definition callbacks_of (t : list Obs) : list CallbackArgs :=
  flat_map (fun o => match o with Callback a => [a] | _ => [] end) t.

Definition requests_of (t : list Obs) : list RequestOptions :=
  flat_map (fun o => match o with HttpsRequest r => [r] | _ => [] end) t.

Definition lookups_of (t : list Obs) : list string :=
  flat_map (fun o => match o with SsmGetParameter n => [n] | _ => [] end) t.

Definition logs_of (t : list Obs) : list string :=
  flat_map (fun o => match o with ConsoleLog l => [l] | _ => [] end) t.

(** [callback('Unauthorized')], the Deny signal of the authorizer. *)
Definition Unauthorized : CallbackArgs := CbError "Unauthorized".

(** The response handed to [callback(null, response)] for a resource. *)
Definition allow_response (resource : string) : Response :=
  {| policyDocument :=
       {| Version := "2012-10-17";
          Statement := [ {| Action := "execute-api:Invoke";
                            Effect := "allow";
                            Resource := resource |} ] |};
     context := {| simpleAuth := true |} |}.

(** The invocation gets as far as the verification call, whose promise ends
    in state [st]: the token is present and not empty, both lookups returned
    data with a [Parameter]. *)
Definition verification_settles (env : Env) (event : Event) (st : Settled) : Prop :=
  exists token d1 d2 p1 p2,
    authorizationToken event = Some token /\ token <> "" /\
    getParameter env "/google/captcha_secret_key" = SsmData d1 /\
    data_Parameter d1 = Some p1 /\
    getParameter env "/google/google_captch_verification_url" = SsmData d2 /\
    data_Parameter d2 = Some p2 /\
    snd (verifyCaptcha env (Value p1) (Value p2) token) = Ret st.

(** A lookup of the invocation fails: every lookup the handler makes is
    answered, and one of them is answered with an error or with data that
    carries no [Parameter]. The handler asks for the endpoint only once the
    secret key was answered with data, and reads [Parameter] only once both
    were. A lookup that is never answered is not a failure: the handler then
    stays pending. *)
Definition lookup_fails (env : Env) : Prop :=
  match getParameter env "/google/captcha_secret_key" with
  | SsmErr _ => True
  | SsmSilent => False
  | SsmData d1 =>
      match getParameter env "/google/google_captch_verification_url" with
      | SsmErr _ => True
      | SsmSilent => False
      | SsmData d2 => data_Parameter d1 = None \/ data_Parameter d2 = None
      end
  end.

(** The trace of the two lookups, in the order the handler awaits them. *)
Definition lookups_made : list Obs :=
  [SsmGetParameter "/google/captcha_secret_key";
   SsmGetParameter "/google/google_captch_verification_url"].

(** The options [verifyCaptcha] passes to [https.request]. *)
Definition request_for (secret url : option string) (token : string) : RequestOptions :=
  {| hostname := "www.google.com";
     port := 443;
     path := js_string url ++ "?secret=" ++ js_string secret ++ "&response=" ++ token;
     method := "POST";
     headers := [("Content-Type", "application/json")] |}.

(** ** Sample collaborators *)

Definition dq : string := String "034"%char "".

(** [{"success":<v>}] as the verification service writes it. *)
Definition success_payload (v : string) : string :=
  "{" ++ dq ++ "success" ++ dq ++ ":" ++ v ++ "}".

Definition stored (v : string) : SsmReply :=
  SsmData {| data_Parameter := Some {| Value := Some v |} |}.

Definition sample_store (Name : string) : SsmReply :=
  if String.eqb Name "/google/captcha_secret_key" then stored "s3cr3t"
  else if String.eqb Name "/google/google_captch_verification_url"
       then stored "/recaptcha/api/siteverify"
  else SsmErr "ParameterNotFound".

(** A service that answers every request with status 200 and one chunk. *)
Definition answering (body : string) : Env :=
  {| process_env := [];
     getParameter := sample_store;
     https_request := fun _ => [NetResponse 200; NetData body] |}.

Definition sample_event : Event :=
  {| authorizationToken := Some "abc";
     methodArn := "arn:aws:execute-api:ap-southeast-2:123456789012:api/prod/GET/items" |}.

(** A service whose request fails before any response. *)
Definition failing (error : string) : Env :=
  {| process_env := [];
     getParameter := sample_store;
     https_request := fun _ => [NetError error] |}.

(** A service that never answers. *)
Definition silent_service : Env :=
  {| process_env := [];
     getParameter := sample_store;
     https_request := fun _ => [] |}.

(** A deployment that names its two parameters in the process environment
    and keeps them in the store under those names only. *)
Definition renamed_store (Name : string) : SsmReply :=
  if String.eqb Name "/prod/captcha/secret" then stored "s3cr3t"
  else if String.eqb Name "/prod/captcha/verify-url"
       then stored "/recaptcha/api/siteverify"
  else SsmErr "ParameterNotFound".

Definition renamed_deployment : Env :=
  {| process_env := [("CAPTCHA_SECRET_KEY_PARAM", "/prod/captcha/secret");
                     ("CAPTCHA_VERIFICATION_URL_PARAM", "/prod/captcha/verify-url")];
     getParameter := renamed_store;
     https_request := fun _ => [NetResponse 200; NetData (success_payload "true")] |}.

(** A store that fails every lookup. *)
Definition store_down (err : string) : Env :=
  {| process_env := [];
     getParameter := fun _ => SsmErr err;
     https_request := fun _ => [NetResponse 200; NetData (success_payload "true")] |}.


(** A service that answers with a status and no body. *)
Definition bodiless (statusCode : N) : Env :=
  {| process_env := [];
     getParameter := sample_store;
     https_request := fun _ => [NetResponse statusCode] |}.

(** A store that has the secret key and fails the lookup of the endpoint. *)
Definition half_store (err : string) : Env :=
  {| process_env := [];
     getParameter := fun Name =>
       if String.eqb Name "/google/captcha_secret_key" then stored "s3cr3t"
       else SsmErr err;
     https_request := fun _ => [NetResponse 200; NetData (success_payload "true")] |}.

(** A store whose callback is never run. *)
Definition store_silent : Env :=
  {| process_env := [];
     getParameter := fun _ => SsmSilent;
     https_request := fun _ => [NetResponse 200; NetData (success_payload "true")] |}.

(** A store that answers every lookup with data that has no [Parameter]. *)
Definition store_empty : Env :=
  {| process_env := [];
     getParameter := fun _ => SsmData {| data_Parameter := None |};
     https_request := fun _ => [NetResponse 200; NetData (success_payload "true")] |}.

(** ** The platform model on sample texts *)

Example parse_success_true :
  Json.parse (success_payload "true") = Some (JObject [("success", JBool true)]).
Proof. reflexivity. Qed.

Example parse_nested :
  Json.parse ("{" ++ dq ++ "success" ++ dq ++ ": false, " ++ dq ++ "error-codes" ++ dq
              ++ ": [" ++ dq ++ "timeout-or-duplicate" ++ dq ++ "], "
              ++ dq ++ "score" ++ dq ++ ": 2.5e-1}") =
    Some (JObject [("success", JBool false);
                   ("error-codes", JArray [JString "timeout-or-duplicate"]);
                   ("score", JNumber 25 (-2))]).
Proof. reflexivity. Qed.

(** An escaped key is compared after unescaping. *)
Example parse_escaped_key :
  Json.parse ("{" ++ dq ++ "\u0073ucces\u0073" ++ dq ++ ":true}") =
    Some (JObject [("success", JBool true)]).
Proof. reflexivity. Qed.

Example parse_rejects :
  Json.parse "undefined" = None /\ Json.parse "" = None /\
  Json.parse "<html>" = None /\ Json.parse "01" = None /\
  Json.parse "[1,]" = None /\ Json.parse "true false" = None /\
  Json.parse ("{" ++ dq ++ "success" ++ dq ++ ":tru") = None.
Proof. repeat split. Qed.

(** 1e-400 reads as the double zero, 3e-324 as the least positive double. *)
Example tiny_numbers :
  ToBoolean (Some (JNumber 1 (-400))) = false /\
  ToBoolean (Some (JNumber 2 (-324))) = false /\
  ToBoolean (Some (JNumber 3 (-324))) = true.
Proof. repeat split; vm_compute; reflexivity. Qed.

(** The last member written under a key is the one read. *)
Lemma get_own_last (k : string) (v : JsValue) (members : list (string * JsValue)) :
  get_own k (members ++ [(k, v)]) = Some v.
Proof.
  induction members as [| [k' v'] rest IH]; simpl.
  - rewrite String.eqb_refl. reflexivity.
  - rewrite IH. reflexivity.
Qed.

Lemma ToBoolean_boolean (b : bool) : ToBoolean (Some (JBool b)) = b.
Proof. reflexivity. Qed.

(** ** Traces *)

Lemma callbacks_of_app (t u : list Obs) :
  callbacks_of (t ++ u) = (callbacks_of t ++ callbacks_of u)%list.
Proof. apply flat_map_app. Qed.

Lemma requests_of_app (t u : list Obs) :
  requests_of (t ++ u) = (requests_of t ++ requests_of u)%list.
Proof. apply flat_map_app. Qed.

Lemma lookups_of_app (t u : list Obs) :
  lookups_of (t ++ u) = (lookups_of t ++ lookups_of u)%list.
Proof. apply flat_map_app. Qed.

Lemma logs_of_app (t u : list Obs) :
  logs_of (t ++ u) = (logs_of t ++ logs_of u)%list.
Proof. apply flat_map_app. Qed.

(** The listeners only write to the console. *)
Lemma listen_logs_only (events : list NetEvent) :
  forall listening,
    Forall (fun o => exists l, o = ConsoleLog l) (fst (listen listening events)).
Proof.
  induction events as [| ev rest IH]; intro listening; simpl.
  - constructor.
  - destruct ev as [sc | d | error]; simpl.
    + specialize (IH true). destruct (listen true rest) as [t r]; simpl in *.
      constructor; [eexists; reflexivity | exact IH].
    + destruct listening; simpl; [constructor | apply IH].
    + constructor.
Qed.

Lemma logs_only_callbacks (t : list Obs) :
  Forall (fun o => exists l, o = ConsoleLog l) t -> callbacks_of t = [].
Proof.
  induction 1 as [| o t [l ->] _ IH]; simpl; [reflexivity | exact IH].
Qed.

Lemma logs_only_requests (t : list Obs) :
  Forall (fun o => exists l, o = ConsoleLog l) t -> requests_of t = [].
Proof.
  induction 1 as [| o t [l ->] _ IH]; simpl; [reflexivity | exact IH].
Qed.

Lemma logs_only_lookups (t : list Obs) :
  Forall (fun o => exists l, o = ConsoleLog l) t -> lookups_of t = [].
Proof.
  induction 1 as [| o t [l ->] _ IH]; simpl; [reflexivity | exact IH].
Qed.

(** The listeners never throw: they settle the promise or leave it pending. *)
Lemma listen_returns (events : list NetEvent) :
  forall listening, exists st, snd (listen listening events) = Ret st.
Proof.
  induction events as [| ev rest IH]; intro listening; simpl.
  - eexists; reflexivity.
  - destruct ev as [sc | d | error]; simpl.
    + destruct (IH true) as [st Hst]. destruct (listen true rest) as [t r]; simpl in *.
      eexists; exact Hst.
    + destruct listening; simpl; [eexists; reflexivity | apply IH].
    + eexists; reflexivity.
Qed.

(** [JSON.parse(undefined)] throws. *)
Lemma JSON_parse_undefined : JSON_parse None = None.
Proof. reflexivity. Qed.

(** ** The handler, once the verification call has been made *)

(** What the handler does with the state the verification promise ends in. *)
Lemma handler_verified (env : Env) (event : Event) (st : Settled)
    (token : string) (d1 d2 : GetParameterResult) (p1 p2 : SsmParameter) :
  authorizationToken event = Some token -> token <> "" ->
  getParameter env "/google/captcha_secret_key" = SsmData d1 ->
  data_Parameter d1 = Some p1 ->
  getParameter env "/google/google_captch_verification_url" = SsmData d2 ->
  data_Parameter d2 = Some p2 ->
  snd (verifyCaptcha env (Value p1) (Value p2) token) = Ret st ->
  let tv := fst (verifyCaptcha env (Value p1) (Value p2) token) in
  handler env event =
    match st with
    | Resolved d =>
        match JSON_parse (Some d) with
        | None => (lookups_made ++ tv, Throw SyntaxError)%list
        | Some v =>
            match get_success v with
            | None => (lookups_made ++ tv, Throw TypeError)%list
            | Some s =>
                ((lookups_made ++ tv) ++
                   [Callback (if ToBoolean s
                              then CbResult (allow_response (methodArn event))
                              else Unauthorized)], Ret tt)%list
            end
        end
    | Rejected e =>
        ((lookups_made ++ tv) ++ [ConsoleLog ("error " ++ e)], Throw SyntaxError)%list
    | Unsettled => (lookups_made ++ tv, Hang)%list
    end.
Proof.
  intros Htok Hne H1 Hp1 H2 Hp2 Hv tv. subst tv.
  unfold handler. rewrite Htok. simpl falsy.
  destruct (String.eqb_spec token "") as [-> | _]; [congruence |].
  unfold getParam. rewrite H1, H2. cbn [bind emit ret app].
  unfold Parameter_Value. rewrite Hp1, Hp2. cbn [bind emit ret app js_string].
  destruct (verifyCaptcha env (Value p1) (Value p2) token) as [tv sv].
  simpl in Hv. subst sv. cbn [bind fst].
  destruct st as [d | e |]; cbn [bind ret hang throw app].
  - destruct (JSON_parse (Some d)) as [v |]; cbn [bind ret throw app].
    + destruct (get_success v) as [s |]; cbn [bind ret throw app].
      * destruct (ToBoolean s); simpl; rewrite ?app_nil_r; reflexivity.
      * simpl; rewrite ?app_nil_r; reflexivity.
    + simpl; rewrite ?app_nil_r; reflexivity.
  - rewrite JSON_parse_undefined. simpl; rewrite ?app_nil_r; reflexivity.
  - simpl; rewrite ?app_nil_r; reflexivity.
Qed.

(** ** The verification call *)

Lemma verifyCaptcha_trace (env : Env) (secret url : option string) (token : string) :
  fst (verifyCaptcha env secret url token) =
    HttpsRequest (request_for secret url token)
      :: fst (listen false (https_request env (request_for secret url token))).
Proof.
  unfold verifyCaptcha, request_for. cbn [bind emit].
  destruct (listen false _) as [t r]. reflexivity.
Qed.

Lemma verifyCaptcha_settles (env : Env) (secret url : option string) (token : string) :
  snd (verifyCaptcha env secret url token) =
    snd (listen false (https_request env (request_for secret url token))).
Proof.
  unfold verifyCaptcha, request_for. cbn [bind emit].
  destruct (listen false _) as [t r]. reflexivity.
Qed.

Lemma verifyCaptcha_returns (env : Env) (secret url : option string) (token : string) :
  exists st, snd (verifyCaptcha env secret url token) = Ret st.
Proof. rewrite verifyCaptcha_settles. apply listen_returns. Qed.

Lemma verifyCaptcha_callbacks (env : Env) (secret url : option string) (token : string) :
  callbacks_of (fst (verifyCaptcha env secret url token)) = [].
Proof.
  rewrite verifyCaptcha_trace. simpl.
  apply logs_only_callbacks, listen_logs_only.
Qed.

Lemma verifyCaptcha_requests (env : Env) (secret url : option string) (token : string) :
  requests_of (fst (verifyCaptcha env secret url token)) = [request_for secret url token].
Proof.
  rewrite verifyCaptcha_trace. simpl. f_equal.
  apply logs_only_requests, listen_logs_only.
Qed.

Lemma verifyCaptcha_lookups (env : Env) (secret url : option string) (token : string) :
  lookups_of (fst (verifyCaptcha env secret url token)) = [].
Proof.
  rewrite verifyCaptcha_trace. simpl.
  apply logs_only_lookups, listen_logs_only.
Qed.

(** ** The three ways an invocation can go *)

Lemma falsy_false (token : option string) :
  falsy token = false -> exists s, token = Some s /\ s <> "".
Proof.
  destruct token as [s |]; simpl; [| discriminate].
  destruct (String.eqb_spec s ""); [discriminate |]. intros _. eauto.
Qed.

(** Either the token is missing and the handler answers at once, or a lookup
    stops the invocation before any request, or the verification call is made
    and its promise ends in some state. *)
Lemma handler_cases (env : Env) (event : Event) :
  (falsy (authorizationToken event) = true /\
   handler env event = ([Callback Unauthorized], Ret tt))
  \/ (falsy (authorizationToken event) = false /\
      exists t r, handler env event = (t, r) /\
        (t = [SsmGetParameter "/google/captcha_secret_key"] \/ t = lookups_made) /\
        (r = Hang \/ exists e, r = Throw e))
  \/ (exists st, verification_settles env event st).
Proof.
  destruct (falsy (authorizationToken event)) eqn:Hf.
  - left. split; [reflexivity |]. unfold handler. rewrite Hf. reflexivity.
  - right. destruct (falsy_false _ Hf) as (token & Htok & Hne).
    destruct (getParameter env "/google/captcha_secret_key") as [err1 | d1 |] eqn:H1.
    { left. split; [reflexivity |]. unfold handler, getParam. rewrite Hf, H1.
      do 2 eexists. split; [reflexivity |]. split; [left; reflexivity | right; eauto]. }
    2:{ left. split; [reflexivity |]. unfold handler, getParam. rewrite Hf, H1.
        do 2 eexists. split; [reflexivity |]. split; [left; reflexivity | left; reflexivity]. }
    destruct (getParameter env "/google/google_captch_verification_url")
      as [err2 | d2 |] eqn:H2.
    { left. split; [reflexivity |]. unfold handler, getParam. rewrite Hf, H1, H2.
      do 2 eexists. split; [reflexivity |]. split; [right; reflexivity | right; eauto]. }
    2:{ left. split; [reflexivity |]. unfold handler, getParam. rewrite Hf, H1, H2.
        do 2 eexists. split; [reflexivity |]. split; [right; reflexivity | left; reflexivity]. }
    destruct (data_Parameter d1) as [p1 |] eqn:Hp1.
    2:{ left. split; [reflexivity |]. unfold handler, getParam. rewrite Hf, H1, H2.
        cbn [bind emit ret app]. unfold Parameter_Value. rewrite Hp1.
        do 2 eexists. split; [reflexivity |]. split; [right; reflexivity | right; eauto]. }
    destruct (data_Parameter d2) as [p2 |] eqn:Hp2.
    2:{ left. split; [reflexivity |]. unfold handler, getParam. rewrite Hf, H1, H2.
        cbn [bind emit ret app]. unfold Parameter_Value. rewrite Hp1, Hp2.
        do 2 eexists. split; [reflexivity |]. split; [right; reflexivity | right; eauto]. }
    right. destruct (verifyCaptcha_returns env (Value p1) (Value p2) token) as [st Hst].
    exists st, token, d1, d2, p1, p2. repeat split; assumption.
Qed.

(** What an invocation that reached the verification call leaves behind. *)
Lemma verified_observed (env : Env) (event : Event) (st : Settled) :
  verification_settles env event st ->
  let t := fst (handler env event) in
  let r := snd (handler env event) in
  (exists secret url token, requests_of t = [request_for secret url token]) /\
  lookups_of t =
    ["/google/captcha_secret_key"; "/google/google_captch_verification_url"] /\
  match st with
  | Resolved d =>
      match JSON_parse (Some d) with
      | None => callbacks_of t = [] /\ r = Throw SyntaxError
      | Some v =>
          match get_success v with
          | None => callbacks_of t = [] /\ r = Throw TypeError
          | Some s =>
              callbacks_of t =
                [if ToBoolean s then CbResult (allow_response (methodArn event))
                 else Unauthorized] /\ r = Ret tt
          end
      end
  | Rejected e =>
      callbacks_of t = [] /\ r = Throw SyntaxError /\ In ("error " ++ e) (logs_of t)
  | Unsettled => callbacks_of t = [] /\ r = Hang
  end.
Proof.
  intros (token & d1 & d2 & p1 & p2 & Htok & Hne & H1 & Hp1 & H2 & Hp2 & Hv) t r.
  subst t r.
  rewrite (handler_verified env event st token d1 d2 p1 p2 Htok Hne H1 Hp1 H2 Hp2 Hv).
  pose proof (verifyCaptcha_callbacks env (Value p1) (Value p2) token) as Hc.
  pose proof (verifyCaptcha_requests env (Value p1) (Value p2) token) as Hr.
  pose proof (verifyCaptcha_lookups env (Value p1) (Value p2) token) as Hl.
  set (tv := fst (verifyCaptcha env (Value p1) (Value p2) token)) in *.
  assert (Hreq : forall u, requests_of u = [] ->
            requests_of ((lookups_made ++ tv) ++ u) =
              [request_for (Value p1) (Value p2) token]).
  { intros u Hu. rewrite !requests_of_app, Hr, Hu. reflexivity. }
  assert (Hlk : forall u, lookups_of u = [] ->
            lookups_of ((lookups_made ++ tv) ++ u) =
              ["/google/captcha_secret_key"; "/google/google_captch_verification_url"]).
  { intros u Hu. rewrite !lookups_of_app, Hl, Hu. reflexivity. }
  assert (Hcb : forall u, callbacks_of ((lookups_made ++ tv) ++ u) = callbacks_of u).
  { intros u. rewrite !callbacks_of_app, Hc. reflexivity. }
  pose proof (Hreq [] eq_refl) as Hreq0. pose proof (Hlk [] eq_refl) as Hlk0.
  pose proof (Hcb []) as Hcb0. rewrite app_nil_r in Hreq0, Hlk0, Hcb0.
  destruct st as [d | e |].
  - destruct (JSON_parse (Some d)) as [v |].
    + destruct (get_success v) as [s |]; cbn [fst snd].
      * split; [do 3 eexists; apply Hreq; reflexivity |].
        split; [apply Hlk; reflexivity |].
        split; [rewrite Hcb; reflexivity | reflexivity].
      * split; [do 3 eexists; exact Hreq0 |]. split; [exact Hlk0 |].
        split; [exact Hcb0 | reflexivity].
    + cbn [fst snd]. split; [do 3 eexists; exact Hreq0 |]. split; [exact Hlk0 |].
      split; [exact Hcb0 | reflexivity].
  - cbn [fst snd]. split; [do 3 eexists; apply Hreq; reflexivity |].
    split; [apply Hlk; reflexivity |].
    split; [rewrite Hcb; reflexivity |]. split; [reflexivity |].
    rewrite logs_of_app. apply in_or_app. right. left. reflexivity.
  - cbn [fst snd]. split; [do 3 eexists; exact Hreq0 |]. split; [exact Hlk0 |].
    split; [exact Hcb0 | reflexivity].
Qed.

Lemma answering_settles (body : string) :
  verification_settles (answering body) sample_event (Resolved body).
Proof.
  exists "abc", {| data_Parameter := Some {| Value := Some "s3cr3t" |} |},
    {| data_Parameter := Some {| Value := Some "/recaptcha/api/siteverify" |} |},
    {| Value := Some "s3cr3t" |}, {| Value := Some "/recaptcha/api/siteverify" |}.
  repeat split; try reflexivity. discriminate.
Qed.

(** ** The decision *)

(** C1. When the verification call yields a payload that parses to an object
    whose [success] member is a boolean, the handler makes exactly one
    callback and fulfils: the Allow response for [event.methodArn] when the
    flag is true, ['Unauthorized'] when it is false. Nothing else of the
    payload or of the collaborators enters the result. *)
Theorem decision_mapping_exact (env : Env) (event : Event) (d : string)
    (v : JsValue) (b : bool) :
  verification_settles env event (Resolved d) ->
  JSON_parse (Some d) = Some v ->
  get_success v = Some (Some (JBool b)) ->
  callbacks_of (fst (handler env event)) =
    [if b then CbResult (allow_response (methodArn event)) else CbError "Unauthorized"]
  /\ snd (handler env event) = Ret tt.
Proof.
  intros Hs Hp Hg.
  destruct (verified_observed env event _ Hs) as (_ & _ & H).
  rewrite Hp, Hg in H. exact H.
Qed.

Lemma decision_mapping_exact_witness :
  verification_settles (answering (success_payload "true")) sample_event
    (Resolved (success_payload "true")) /\
  JSON_parse (Some (success_payload "true")) = Some (JObject [("success", JBool true)]) /\
  callbacks_of (fst (handler (answering (success_payload "true")) sample_event)) =
    [CbResult (allow_response (methodArn sample_event))] /\
  callbacks_of (fst (handler (answering (success_payload "false")) sample_event)) =
    [CbError "Unauthorized"].
Proof.
  split; [apply answering_settles |]. split; [reflexivity |]. split.
  - apply (decision_mapping_exact (answering (success_payload "true")) sample_event
             (success_payload "true") (JObject [("success", JBool true)]) true);
      [apply answering_settles | reflexivity | reflexivity].
  - apply (decision_mapping_exact (answering (success_payload "false")) sample_event
             (success_payload "false") (JObject [("success", JBool false)]) false);
      [apply answering_settles | reflexivity | reflexivity].
Defined.

(** C2. With [event.authorizationToken] absent or empty the handler calls
    [callback('Unauthorized')] and does nothing else: no request to the
    verification service, no lookup either. *)
Theorem missing_token_denied (env : Env) (event : Event) :
  authorizationToken event = None \/ authorizationToken event = Some "" ->
  handler env event = ([Callback (CbError "Unauthorized")], Ret tt) /\
  requests_of (fst (handler env event)) = [] /\
  lookups_of (fst (handler env event)) = [].
Proof.
  intros H. assert (Hh : handler env event = ([Callback (CbError "Unauthorized")], Ret tt)).
  { unfold handler. destruct H as [-> | ->]; reflexivity. }
  rewrite Hh. repeat split.
Qed.

Lemma missing_token_denied_witness :
  handler (answering (success_payload "true"))
    {| authorizationToken := None; methodArn := methodArn sample_event |} =
    ([Callback (CbError "Unauthorized")], Ret tt) /\
  requests_of (fst (handler (answering (success_payload "true"))
    {| authorizationToken := Some ""; methodArn := methodArn sample_event |})) = [].
Proof.
  split.
  - apply (missing_token_denied (answering (success_payload "true"))
             {| authorizationToken := None; methodArn := methodArn sample_event |}).
    left; reflexivity.
  - apply (missing_token_denied (answering (success_payload "true"))
             {| authorizationToken := Some ""; methodArn := methodArn sample_event |}).
    right; reflexivity.
Defined.

(** ** Faults of the verification service *)

(** C3. The handler does not do here what its own comments say ("if the
    verification fails, it throws an error which is caught and logged", "it
    returns an 'Unauthorized' error"): when the request fails at the transport
    level the rejection is caught and logged, [result] stays [undefined],
    [JSON.parse(undefined)] throws, the handler's promise rejects with a
    [SyntaxError] and [callback] is never called, so there is no Deny. *)
Lemma transport_failure_not_denied :
  callbacks_of (fst (handler (failing "Error: connect ECONNREFUSED") sample_event)) = [] /\
  snd (handler (failing "Error: connect ECONNREFUSED") sample_event) = Throw SyntaxError /\
  logs_of (fst (handler (failing "Error: connect ECONNREFUSED") sample_event)) =
    ["error Error: connect ECONNREFUSED"].
Proof. repeat split. Qed.

Lemma failing_settles (error : string) :
  verification_settles (failing error) sample_event (Rejected error).
Proof.
  exists "abc", {| data_Parameter := Some {| Value := Some "s3cr3t" |} |},
    {| data_Parameter := Some {| Value := Some "/recaptcha/api/siteverify" |} |},
    {| Value := Some "s3cr3t" |}, {| Value := Some "/recaptcha/api/siteverify" |}.
  repeat split; try reflexivity. discriminate.
Qed.

(** ** Faults of the configuration store *)

(** C4, as the specification states it, fails: when the store reports an
    error for the secret key, the awaited [getParam] throws, the handler's
    promise rejects with the store's error and [callback] is never called, so
    there is no Deny. *)
Lemma store_failure_not_denied :
  handler (store_down "ParameterNotFound") sample_event =
    ([SsmGetParameter "/google/captcha_secret_key"], Throw (StoreError "ParameterNotFound")) /\
  callbacks_of (fst (handler (store_down "ParameterNotFound") sample_event)) = [].
Proof. split; reflexivity. Qed.

(** C4, amended. When every lookup the handler makes is answered and one of
    them fails (the store reports an error for the secret key or, the secret
    key returned, for the verification endpoint; or both return data and one
    carries no [Parameter]), no request to the verification service is made
    and no callback is called (neither Allow nor Deny): the handler's promise
    rejects. *)
Theorem lookup_failure_rejects (env : Env) (event : Event) (token : string) :
  authorizationToken event = Some token -> token <> "" ->
  lookup_fails env ->
  requests_of (fst (handler env event)) = [] /\
  callbacks_of (fst (handler env event)) = [] /\
  exists e, snd (handler env event) = Throw e.
Proof.
  intros Htok Hne Hfail. unfold lookup_fails in Hfail.
  unfold handler. rewrite Htok. simpl falsy.
  destruct (String.eqb_spec token "") as [-> | _]; [congruence |].
  unfold getParam.
  destruct (getParameter env "/google/captcha_secret_key") as [err1 | d1 |];
    [repeat split; eexists; reflexivity | | contradiction].
  destruct (getParameter env "/google/google_captch_verification_url") as [err2 | d2 |];
    [repeat split; eexists; reflexivity | | contradiction].
  cbn [bind emit ret app]. unfold Parameter_Value.
  destruct (data_Parameter d1) as [p1 |];
    [| repeat split; eexists; reflexivity].
  destruct (data_Parameter d2) as [p2 |];
    [| repeat split; eexists; reflexivity].
  destruct Hfail; discriminate.
Qed.

Lemma lookup_failure_rejects_witness :
  lookup_fails (store_down "AccessDeniedException") /\
  requests_of (fst (handler (store_down "AccessDeniedException") sample_event)) = [] /\
  callbacks_of (fst (handler (store_down "AccessDeniedException") sample_event)) = [] /\
  exists e, snd (handler (store_down "AccessDeniedException") sample_event) = Throw e.
Proof.
  split; [exact I |].
  apply (lookup_failure_rejects (store_down "AccessDeniedException") sample_event "abc");
    [reflexivity | discriminate | exact I].
Defined.

(** ** Fail closed *)




(** ** The response *)

(** C6. Whatever the handler passes to [callback] is either the error
    ['Unauthorized'] alone, with no policy document, or a response whose
    policy document has exactly one statement, granting
    ['execute-api:Invoke'] with effect ['allow'] on exactly
    [event.methodArn], together with the context [{simpleAuth: true}]. *)
Theorem response_shape (env : Env) (event : Event) (a : CallbackArgs) :
  In a (callbacks_of (fst (handler env event))) ->
  match a with
  | CbError err => err = "Unauthorized"
  | CbResult response =>
      response =
        {| policyDocument :=
             {| Version := "2012-10-17";
                Statement := [ {| Action := "execute-api:Invoke";
                                  Effect := "allow";
                                  Resource := methodArn event |} ] |};
           context := {| simpleAuth := true |} |}
  end.
Proof.
  intros Hin.
  destruct (handler_cases env event) as [[_ Hh] | [(_ & t & o & Hh & Ht & _) | [st Hs]]].
  - rewrite Hh in Hin. destruct Hin as [<- | []]. reflexivity.
  - rewrite Hh in Hin. destruct Ht as [-> | ->]; simpl in Hin; contradiction.
  - pose proof (verified_observed env event _ Hs) as (_ & _ & H).
    destruct st as [d | e |].
    + destruct (JSON_parse (Some d)) as [v |].
      * destruct (get_success v) as [s |].
        -- destruct H as [Hc _]. rewrite Hc in Hin. destruct Hin as [<- | []].
           destruct (ToBoolean s); reflexivity.
        -- destruct H as [Hc _]. rewrite Hc in Hin. contradiction.
      * destruct H as [Hc _]. rewrite Hc in Hin. contradiction.
    + destruct H as [Hc _]. rewrite Hc in Hin. contradiction.
    + destruct H as [Hc _]. rewrite Hc in Hin. contradiction.
Qed.

Lemma response_shape_witness :
  In (CbResult (allow_response "arn:aws:execute-api:ap-southeast-2:123456789012:api/prod/GET/items"))
    (callbacks_of (fst (handler (answering (success_payload "true")) sample_event))) /\
  allow_response "arn:aws:execute-api:ap-southeast-2:123456789012:api/prod/GET/items" =
    {| policyDocument :=
         {| Version := "2012-10-17";
            Statement := [ {| Action := "execute-api:Invoke";
                              Effect := "allow";
                              Resource := methodArn sample_event |} ] |};
       context := {| simpleAuth := true |} |}.
Proof.
  split; [left; reflexivity |].
  apply (response_shape (answering (success_payload "true")) sample_event
           (CbResult (allow_response
              "arn:aws:execute-api:ap-southeast-2:123456789012:api/prod/GET/items"))).
  left; reflexivity.
Defined.

(** ** One outcome at most *)

(** C7, as the specification states it, fails: when the verification service
    never answers, the promise of [verifyCaptcha] stays pending (the request
    has no timeout), the handler never resumes and no outcome is produced. *)
Lemma silent_service_no_outcome :
  callbacks_of (fst (handler silent_service sample_event)) = [] /\
  snd (handler silent_service sample_event) = Hang.
Proof. split; reflexivity. Qed.

(** C7, amended. An invocation produces at most one outcome: exactly one,
    Allow for [event.methodArn] or Deny, when the handler's promise fulfils,
    and none when it rejects or never settles. *)
Theorem at_most_one_outcome (env : Env) (event : Event) :
  (exists a, callbacks_of (fst (handler env event)) = [a] /\
             (a = CbError "Unauthorized" \/
              a = CbResult (allow_response (methodArn event))) /\
             snd (handler env event) = Ret tt)
  \/ (callbacks_of (fst (handler env event)) = [] /\
      (snd (handler env event) = Hang \/ exists e, snd (handler env event) = Throw e)).
Proof.
  destruct (handler_cases env event) as [[_ Hh] | [(_ & t & o & Hh & Ht & Ho) | [st Hs]]].
  - left. rewrite Hh. eexists. split; [reflexivity |]. split; [left |]; reflexivity.
  - right. rewrite Hh. split; [destruct Ht as [-> | ->]; reflexivity | exact Ho].
  - pose proof (verified_observed env event _ Hs) as (_ & _ & H).
    destruct st as [d | e |].
    + destruct (JSON_parse (Some d)) as [v |].
      * destruct (get_success v) as [s |].
        -- left. destruct H as [Hc Hr]. eexists. split; [exact Hc |].
           split; [| exact Hr]. destruct (ToBoolean s); [right | left]; reflexivity.
        -- right. destruct H as [Hc Hr]. split; [exact Hc | right; eauto].
      * right. destruct H as [Hc Hr]. split; [exact Hc | right; eauto].
    + right. destruct H as (Hc & Hr & _). split; [exact Hc | right; eauto].
    + right. destruct H as [Hc Hr]. split; [exact Hc | left; exact Hr].
Qed.

(** ** The names of the parameters *)

(** C9, as the specification states it, fails: a deployment that configures
    other names for its two parameters, and keeps them in the store under
    those names, is still asked for ['/google/captcha_secret_key'], which
    that store does not have; the configured names are never queried. *)
Lemma configured_names_ignored :
  process_env renamed_deployment =
    [("CAPTCHA_SECRET_KEY_PARAM", "/prod/captcha/secret");
     ("CAPTCHA_VERIFICATION_URL_PARAM", "/prod/captcha/verify-url")] /\
  lookups_of (fst (handler renamed_deployment sample_event)) =
    ["/google/captcha_secret_key"] /\
  snd (handler renamed_deployment sample_event) = Throw (StoreError "ParameterNotFound").
Proof. repeat split. Qed.

(** C9, amended. The names of the two parameters are the literals
    ['/google/captcha_secret_key'] and
    ['/google/google_captch_verification_url'] written in the handler:
    whatever the external configuration, the store is asked for these names
    only, the secret key first, and for nothing at all when the token is
    missing. *)
Theorem lookup_names_literal (env : Env) (event : Event) :
  lookups_of (fst (handler env event)) = []
  \/ lookups_of (fst (handler env event)) = ["/google/captcha_secret_key"]
  \/ lookups_of (fst (handler env event)) =
       ["/google/captcha_secret_key"; "/google/google_captch_verification_url"].
Proof.
  destruct (handler_cases env event) as [[_ Hh] | [(_ & t & o & Hh & Ht & _) | [st Hs]]].
  - left. rewrite Hh. reflexivity.
  - right. rewrite Hh. destruct Ht as [-> | ->]; [left | right]; reflexivity.
  - right. right. apply (verified_observed env event _ Hs).
Qed.

(** ** The host contacted *)

(** C10. For every secret key, endpoint value and token, [verifyCaptcha]
    issues exactly one request, to host [www.google.com] on port 443, by
    POST; the endpoint value only begins the path, followed by the secret and
    the token as a query string. Every request the handler makes goes to that
    host and port. *)
Theorem verification_host_fixed (env : Env) (secret url token : string) :
  requests_of (fst (verifyCaptcha env (Some secret) (Some url) token)) =
    [ {| hostname := "www.google.com";
         port := 443;
         path := url ++ "?secret=" ++ secret ++ "&response=" ++ token;
         method := "POST";
         headers := [("Content-Type", "application/json")] |} ]
  /\ forall event options,
       In options (requests_of (fst (handler env event))) ->
       hostname options = "www.google.com" /\ port options = 443%Z.
Proof.
  split; [apply verifyCaptcha_requests |].
  intros event options Hin.
  destruct (handler_cases env event) as [[_ Hh] | [(_ & t & o & Hh & Ht & _) | [st Hs]]].
  - rewrite Hh in Hin. contradiction.
  - rewrite Hh in Hin. destruct Ht as [-> | ->]; contradiction.
  - pose proof (verified_observed env event _ Hs) as ((s & u & k & Hr) & _).
    rewrite Hr in Hin. destruct Hin as [<- | []]. split; reflexivity.
Qed.

(** * Further properties of the code *)

(** ** The promise of [verifyCaptcha] *)




Lemma listen_responses_only (events : list NetEvent) :
  Forall (fun ev => exists statusCode, ev = NetResponse statusCode) events ->
  forall listening, snd (listen listening events) = Ret Unsettled.
Proof.
  induction 1 as [| ev rest [sc ->] _ IH]; intro listening; simpl.
  - reflexivity.
  - specialize (IH true). destruct (listen true rest) as [t r]. exact IH.
Qed.

(** X2. When the verification service answers with a status line only, no
    chunk of body and no error, the promise of [verifyCaptcha] never settles:
    the handler never resumes, calls [callback] not at all and its own promise
    stays pending. *)
Theorem bodiless_response_hangs (env : Env) (event : Event) (token : string)
    (d1 d2 : GetParameterResult) (p1 p2 : SsmParameter) :
  authorizationToken event = Some token -> token <> "" ->
  getParameter env "/google/captcha_secret_key" = SsmData d1 ->
  data_Parameter d1 = Some p1 ->
  getParameter env "/google/google_captch_verification_url" = SsmData d2 ->
  data_Parameter d2 = Some p2 ->
  Forall (fun ev => exists statusCode, ev = NetResponse statusCode)
    (https_request env (request_for (Value p1) (Value p2) token)) ->
  snd (handler env event) = Hang /\ callbacks_of (fst (handler env event)) = [].
Proof.
  intros Htok Hne H1 Hp1 H2 Hp2 Hall.
  assert (Hs : verification_settles env event Unsettled).
  { exists token, d1, d2, p1, p2. repeat split; try assumption.
    rewrite verifyCaptcha_settles. apply listen_responses_only, Hall. }
  destruct (verified_observed env event _ Hs) as (_ & _ & Hc & Hr).
  split; assumption.
Qed.

Lemma bodiless_response_hangs_witness :
  snd (handler (bodiless 204) sample_event) = Hang /\
  callbacks_of (fst (handler (bodiless 204) sample_event)) = [].
Proof.
  apply (bodiless_response_hangs (bodiless 204) sample_event "abc"
           {| data_Parameter := Some {| Value := Some "s3cr3t" |} |}
           {| data_Parameter := Some {| Value := Some "/recaptcha/api/siteverify" |} |}
           {| Value := Some "s3cr3t" |} {| Value := Some "/recaptcha/api/siteverify" |});
    try reflexivity; [discriminate |].
  repeat constructor. exists 204%N. reflexivity.
Defined.

(** ** The order of effects *)

Lemma logs_only_map (t : list Obs) :
  Forall (fun o => exists l, o = ConsoleLog l) t -> t = map ConsoleLog (logs_of t).
Proof.
  induction 1 as [| o t [l ->] _ IH]; simpl; [reflexivity | f_equal; exact IH].
Qed.

Lemma logs_only_logs_app (t u : list Obs) :
  Forall (fun o => exists l, o = ConsoleLog l) t ->
  Forall (fun o => exists l, o = ConsoleLog l) u ->
  Forall (fun o => exists l, o = ConsoleLog l) (t ++ u).
Proof. intros Ht Hu. apply Forall_app. split; assumption. Qed.

(** The trace of an invocation that reached the verification call: the two
    lookups, the request, console lines, and at most one callback. *)
Lemma verified_trace (env : Env) (event : Event) (st : Settled) :
  verification_settles env event st ->
  exists options logs cbs,
    fst (handler env event) =
      (lookups_made ++ HttpsRequest options :: map ConsoleLog logs ++ map Callback cbs)%list.
Proof.
  intros (token & d1 & d2 & p1 & p2 & Htok & Hne & H1 & Hp1 & H2 & Hp2 & Hv).
  rewrite (handler_verified env event st token d1 d2 p1 p2 Htok Hne H1 Hp1 H2 Hp2 Hv).
  rewrite verifyCaptcha_trace.
  pose proof (listen_logs_only
                (https_request env (request_for (Value p1) (Value p2) token)) false) as Hl.
  apply logs_only_map in Hl. set (tl := fst (listen false _)) in *.
  exists (request_for (Value p1) (Value p2) token).
  destruct st as [d | e |].
  - destruct (JSON_parse (Some d)) as [v |].
    + destruct (get_success v) as [s |]; cbn [fst].
      * exists (logs_of tl),
          [if ToBoolean s then CbResult (allow_response (methodArn event)) else Unauthorized].
        rewrite <- Hl, <- app_assoc. reflexivity.
      * exists (logs_of tl), []. rewrite <- Hl, app_nil_r. reflexivity.
    + cbn [fst]. exists (logs_of tl), []. rewrite <- Hl, app_nil_r. reflexivity.
  - cbn [fst]. exists (logs_of tl ++ [("error " ++ e)%string])%list, [].
    rewrite map_app, <- Hl, app_nil_r, <- app_assoc. reflexivity.
  - cbn [fst]. exists (logs_of tl), []. rewrite <- Hl, app_nil_r. reflexivity.
Qed.

Lemma phased_projections (names : list string) (reqs : list RequestOptions)
    (logs : list string) (cbs : list CallbackArgs) :
  let t := (map SsmGetParameter names ++ map HttpsRequest reqs ++
            map ConsoleLog logs ++ map Callback cbs)%list in
  lookups_of t = names /\ requests_of t = reqs /\ logs_of t = logs /\ callbacks_of t = cbs.
Proof.
  assert (L1 : forall l, lookups_of (map SsmGetParameter l) = l)
    by (induction l; simpl; congruence).
  assert (L2 : forall l, lookups_of (map HttpsRequest l) = []) by (induction l; simpl; congruence).
  assert (L3 : forall l, lookups_of (map ConsoleLog l) = []) by (induction l; simpl; congruence).
  assert (L4 : forall l, lookups_of (map Callback l) = []) by (induction l; simpl; congruence).
  assert (R1 : forall l, requests_of (map SsmGetParameter l) = [])
    by (induction l; simpl; congruence).
  assert (R2 : forall l, requests_of (map HttpsRequest l) = l) by (induction l; simpl; congruence).
  assert (R3 : forall l, requests_of (map ConsoleLog l) = []) by (induction l; simpl; congruence).
  assert (R4 : forall l, requests_of (map Callback l) = []) by (induction l; simpl; congruence).
  assert (G1 : forall l, logs_of (map SsmGetParameter l) = []) by (induction l; simpl; congruence).
  assert (G2 : forall l, logs_of (map HttpsRequest l) = []) by (induction l; simpl; congruence).
  assert (G3 : forall l, logs_of (map ConsoleLog l) = l) by (induction l; simpl; congruence).
  assert (G4 : forall l, logs_of (map Callback l) = []) by (induction l; simpl; congruence).
  assert (C1 : forall l, callbacks_of (map SsmGetParameter l) = [])
    by (induction l; simpl; congruence).
  assert (C2 : forall l, callbacks_of (map HttpsRequest l) = [])
    by (induction l; simpl; congruence).
  assert (C3 : forall l, callbacks_of (map ConsoleLog l) = []) by (induction l; simpl; congruence).
  assert (C4 : forall l, callbacks_of (map Callback l) = l) by (induction l; simpl; congruence).
  cbv zeta.
  rewrite !lookups_of_app, !requests_of_app, !logs_of_app, !callbacks_of_app.
  rewrite L1, L2, L3, L4, R1, R2, R3, R4, G1, G2, G3, G4, C1, C2, C3, C4.
  rewrite !app_nil_r. repeat split.
Qed.

(** X3. Within one invocation the effects come in a fixed order: first the
    lookups of the store, then the request to the verification service, then
    the console lines, and the callback last. The trace is its four
    projections laid end to end, so no lookup follows the request and nothing
    follows the callback. *)
Theorem effects_in_order (env : Env) (event : Event) :
  fst (handler env event) =
    (map SsmGetParameter (lookups_of (fst (handler env event))) ++
     map HttpsRequest (requests_of (fst (handler env event))) ++
     map ConsoleLog (logs_of (fst (handler env event))) ++
     map Callback (callbacks_of (fst (handler env event))))%list.
Proof.
  destruct (handler_cases env event) as [[_ Hh] | [(_ & t & o & Hh & Ht & _) | [st Hs]]].
  - rewrite Hh. reflexivity.
  - rewrite Hh. destruct Ht as [-> | ->]; reflexivity.
  - destruct (verified_trace env event st Hs) as (options & logs & cbs & Ht).
    rewrite Ht.
    change (lookups_made ++ HttpsRequest options :: map ConsoleLog logs ++ map Callback cbs)%list
      with (map SsmGetParameter
              ["/google/captcha_secret_key"; "/google/google_captch_verification_url"] ++
            map HttpsRequest [options] ++ map ConsoleLog logs ++ map Callback cbs)%list.
    destruct (phased_projections
                ["/google/captcha_secret_key"; "/google/google_captch_verification_url"]
                [options] logs cbs) as (P1 & P2 & P3 & P4).
    cbv zeta in P1, P2, P3, P4. rewrite P1, P2, P3, P4. reflexivity.
Qed.

(** ** The request *)

(** X4. An invocation makes at most one request to the verification service
    (a single attempt, never a retry), and makes it only after both lookups
    of the store were made. *)
Theorem at_most_one_request (env : Env) (event : Event) :
  requests_of (fst (handler env event)) = []
  \/ (exists options, requests_of (fst (handler env event)) = [options]) /\
     lookups_of (fst (handler env event)) =
       ["/google/captcha_secret_key"; "/google/google_captch_verification_url"].
Proof.
  destruct (handler_cases env event) as [[_ Hh] | [(_ & t & o & Hh & Ht & _) | [st Hs]]].
  - left. rewrite Hh. reflexivity.
  - left. rewrite Hh. destruct Ht as [-> | ->]; reflexivity.
  - right. destruct (verified_observed env event _ Hs) as ((s & u & k & Hr) & Hl & _).
    split; [eexists; exact Hr | exact Hl].
Qed.

(** X5. The request carries what the store returned and what the caller
    sent, as they are: its path is the [Value] stored under
    ['/google/google_captch_verification_url'], then [?secret=] and the
    [Value] stored under ['/google/captcha_secret_key'], then [&response=]
    and [event.authorizationToken]. A [Value] that is missing is written as
    the word [undefined]. *)
Theorem request_carries_credentials (env : Env) (event : Event) (token : string)
    (d1 d2 : GetParameterResult) (p1 p2 : SsmParameter) :
  authorizationToken event = Some token -> token <> "" ->
  getParameter env "/google/captcha_secret_key" = SsmData d1 ->
  data_Parameter d1 = Some p1 ->
  getParameter env "/google/google_captch_verification_url" = SsmData d2 ->
  data_Parameter d2 = Some p2 ->
  requests_of (fst (handler env event)) =
    [ {| hostname := "www.google.com";
         port := 443;
         path := js_string (Value p2) ++ "?secret=" ++ js_string (Value p1)
                   ++ "&response=" ++ token;
         method := "POST";
         headers := [("Content-Type", "application/json")] |} ].
Proof.
  intros Htok Hne H1 Hp1 H2 Hp2.
  destruct (verifyCaptcha_returns env (Value p1) (Value p2) token) as [st Hv].
  rewrite (handler_verified env event st token d1 d2 p1 p2 Htok Hne H1 Hp1 H2 Hp2 Hv).
  pose proof (verifyCaptcha_requests env (Value p1) (Value p2) token) as Hr.
  set (tv := fst (verifyCaptcha env (Value p1) (Value p2) token)) in *.
  assert (Hreq : forall u, requests_of u = [] ->
            requests_of ((lookups_made ++ tv) ++ u) =
              [request_for (Value p1) (Value p2) token]).
  { intros u Hu. rewrite !requests_of_app, Hr, Hu. reflexivity. }
  pose proof (Hreq [] eq_refl) as Hreq0. rewrite app_nil_r in Hreq0.
  destruct st as [d | e |].
  - destruct (JSON_parse (Some d)) as [v |]; [| exact Hreq0].
    destruct (get_success v) as [s |]; [| exact Hreq0].
    apply Hreq. reflexivity.
  - apply Hreq. reflexivity.
  - exact Hreq0.
Qed.

Lemma request_carries_credentials_witness :
  requests_of (fst (handler (failing "Error: getaddrinfo ENOTFOUND") sample_event)) =
    [ {| hostname := "www.google.com";
         port := 443;
         path := "/recaptcha/api/siteverify" ++ "?secret=" ++ "s3cr3t"
                   ++ "&response=" ++ "abc";
         method := "POST";
         headers := [("Content-Type", "application/json")] |} ].
Proof.
  apply (request_carries_credentials (failing "Error: getaddrinfo ENOTFOUND")
           sample_event "abc"
           {| data_Parameter := Some {| Value := Some "s3cr3t" |} |}
           {| data_Parameter := Some {| Value := Some "/recaptcha/api/siteverify" |} |}
           {| Value := Some "s3cr3t" |} {| Value := Some "/recaptcha/api/siteverify" |});
    try reflexivity. discriminate.
Defined.

Lemma string_app_assoc (a b c : string) : (a ++ b) ++ c = a ++ (b ++ c).
Proof. induction a as [| x a IH]; simpl; [reflexivity | rewrite IH; reflexivity]. Qed.

(** X6. The query string is built by plain concatenation, with no escaping:
    a secret [s] sent with the token [t&response=u] is the very same request
    as the secret [s&response=t] sent with the token [u], so the text of a
    token can supply or replace parameters of the query. *)
Theorem query_not_escaped (env : Env) (url : option string) (s t u : string) :
  verifyCaptcha env (Some s) url (t ++ "&response=" ++ u) =
    verifyCaptcha env (Some (s ++ "&response=" ++ t)) url u.
Proof.
  unfold verifyCaptcha. cbn [js_string].
  assert (H : js_string url ++ "?secret=" ++ s ++ "&response=" ++ t ++ "&response=" ++ u =
              js_string url ++ "?secret=" ++ (s ++ "&response=" ++ t) ++ "&response=" ++ u).
  { f_equal. change ("?secret=" ++ s ++ "&response=" ++ t ++ "&response=" ++ u)
      with ("?secret=" ++ (s ++ "&response=" ++ t ++ "&response=" ++ u)).
    change ("?secret=" ++ (s ++ "&response=" ++ t) ++ "&response=" ++ u)
      with ("?secret=" ++ ((s ++ "&response=" ++ t) ++ "&response=" ++ u)).
    f_equal. rewrite !string_app_assoc. reflexivity. }
  cbv zeta. rewrite H. reflexivity.
Qed.

(** ** The lookups *)

(** X7. When the store reports an error for the secret key, the handler's
    promise rejects with that very error, unchanged, and the endpoint is not
    looked up: the lookups are made one after the other, not together. *)
Theorem first_lookup_error (env : Env) (event : Event) (token err : string) :
  authorizationToken event = Some token -> token <> "" ->
  getParameter env "/google/captcha_secret_key" = SsmErr err ->
  handler env event =
    ([SsmGetParameter "/google/captcha_secret_key"], Throw (StoreError err)).
Proof.
  intros Htok Hne H1. unfold handler. rewrite Htok. simpl falsy.
  destruct (String.eqb_spec token "") as [-> | _]; [congruence |].
  unfold getParam. rewrite H1. reflexivity.
Qed.

Lemma first_lookup_error_witness :
  handler (store_down "ThrottlingException") sample_event =
    ([SsmGetParameter "/google/captcha_secret_key"],
     Throw (StoreError "ThrottlingException")).
Proof.
  apply (first_lookup_error (store_down "ThrottlingException") sample_event
           "abc" "ThrottlingException"); [reflexivity | discriminate | reflexivity].
Defined.

(** X8. When the secret key is returned and the store reports an error for
    the endpoint, the handler's promise rejects with that error after both
    lookups; this holds even when the data returned for the secret key has no
    [Parameter], which is only read after the second lookup. *)
Theorem second_lookup_error (env : Env) (event : Event) (token err : string)
    (d1 : GetParameterResult) :
  authorizationToken event = Some token -> token <> "" ->
  getParameter env "/google/captcha_secret_key" = SsmData d1 ->
  getParameter env "/google/google_captch_verification_url" = SsmErr err ->
  handler env event =
    ([SsmGetParameter "/google/captcha_secret_key";
      SsmGetParameter "/google/google_captch_verification_url"],
     Throw (StoreError err)).
Proof.
  intros Htok Hne H1 H2. unfold handler. rewrite Htok. simpl falsy.
  destruct (String.eqb_spec token "") as [-> | _]; [congruence |].
  unfold getParam. rewrite H1, H2. reflexivity.
Qed.

Lemma second_lookup_error_witness :
  handler (half_store "ParameterNotFound") sample_event =
    ([SsmGetParameter "/google/captcha_secret_key";
      SsmGetParameter "/google/google_captch_verification_url"],
     Throw (StoreError "ParameterNotFound")).
Proof.
  apply (second_lookup_error (half_store "ParameterNotFound") sample_event
           "abc" "ParameterNotFound"
           {| data_Parameter := Some {| Value := Some "s3cr3t" |} |});
    [reflexivity | discriminate | reflexivity | reflexivity].
Defined.

(** X9. When both lookups return data and one of them has no [Parameter],
    reading [.Parameter.Value] throws a [TypeError]: the handler's promise
    rejects after the two lookups, before any request, with no callback. *)
Theorem missing_Parameter_rejects (env : Env) (event : Event) (token : string)
    (d1 d2 : GetParameterResult) :
  authorizationToken event = Some token -> token <> "" ->
  getParameter env "/google/captcha_secret_key" = SsmData d1 ->
  getParameter env "/google/google_captch_verification_url" = SsmData d2 ->
  data_Parameter d1 = None \/ data_Parameter d2 = None ->
  handler env event =
    ([SsmGetParameter "/google/captcha_secret_key";
      SsmGetParameter "/google/google_captch_verification_url"],
     Throw TypeError).
Proof.
  intros Htok Hne H1 H2 Hnone. unfold handler. rewrite Htok. simpl falsy.
  destruct (String.eqb_spec token "") as [-> | _]; [congruence |].
  unfold getParam. rewrite H1, H2. cbn [bind emit ret app]. unfold Parameter_Value.
  destruct (data_Parameter d1) as [p1 |]; [| reflexivity].
  destruct (data_Parameter d2) as [p2 |]; [| reflexivity].
  destruct Hnone; discriminate.
Qed.

Lemma missing_Parameter_rejects_witness :
  handler store_empty sample_event =
    ([SsmGetParameter "/google/captcha_secret_key";
      SsmGetParameter "/google/google_captch_verification_url"],
     Throw TypeError).
Proof.
  apply (missing_Parameter_rejects store_empty sample_event "abc"
           {| data_Parameter := None |} {| data_Parameter := None |});
    [reflexivity | discriminate | reflexivity | reflexivity | left; reflexivity].
Defined.

(** X10. When the store never runs the callback of a lookup, the promise of
    [getParam] never settles: the handler stays pending, makes no request and
    calls [callback] not at all. *)
Theorem silent_store_hangs (env : Env) (event : Event) (token : string) :
  authorizationToken event = Some token -> token <> "" ->
  getParameter env "/google/captcha_secret_key" = SsmSilent
  \/ (exists d1, getParameter env "/google/captcha_secret_key" = SsmData d1) /\
     getParameter env "/google/google_captch_verification_url" = SsmSilent ->
  snd (handler env event) = Hang /\
  requests_of (fst (handler env event)) = [] /\
  callbacks_of (fst (handler env event)) = [].
Proof.
  intros Htok Hne Hsilent. unfold handler. rewrite Htok. simpl falsy.
  destruct (String.eqb_spec token "") as [-> | _]; [congruence |].
  unfold getParam.
  destruct Hsilent as [H1 | [[d1 H1] H2]].
  - rewrite H1. repeat split.
  - rewrite H1, H2. repeat split.
Qed.

Lemma silent_store_hangs_witness :
  snd (handler store_silent sample_event) = Hang /\
  requests_of (fst (handler store_silent sample_event)) = [] /\
  callbacks_of (fst (handler store_silent sample_event)) = [].
Proof.
  apply (silent_store_hangs store_silent sample_event "abc");
    [reflexivity | discriminate | left; reflexivity].
Defined.

(** X11. Any token that is not empty, whatever its text, reaches the store:
    the handler does not inspect the token before looking up the secret key. *)
Theorem nonempty_token_looks_up (env : Env) (event : Event) (token : string) :
  authorizationToken event = Some token -> token <> "" ->
  exists rest,
    fst (handler env event) = SsmGetParameter "/google/captcha_secret_key" :: rest.
Proof.
  intros Htok Hne.
  assert (Hf : falsy (authorizationToken event) = false).
  { rewrite Htok. simpl. destruct (String.eqb_spec token ""); congruence. }
  destruct (handler_cases env event) as [[Hf' _] | [(_ & t & o & Hh & Ht & _) | [st Hs]]].
  - congruence.
  - rewrite Hh. destruct Ht as [-> | ->]; eexists; reflexivity.
  - destruct (verified_trace env event st Hs) as (options & logs & cbs & Ht).
    rewrite Ht. eexists. reflexivity.
Qed.

Lemma nonempty_token_looks_up_witness :
  exists rest,
    fst (handler (answering "<html>")
           {| authorizationToken := Some " "; methodArn := "arn" |}) =
      SsmGetParameter "/google/captcha_secret_key" :: rest.
Proof.
  apply (nonempty_token_looks_up (answering "<html>")
           {| authorizationToken := Some " "; methodArn := "arn" |} " ");
    [reflexivity | discriminate].
Defined.

(** ** The payload *)

(** X12. Whenever the verification call delivers a chunk that [JSON.parse]
    accepts and that is not [null], the handler fulfils with exactly one
    callback, decided by the truthiness of the [success] property and by
    nothing else: Allow for [event.methodArn] when it is truthy,
    ['Unauthorized'] when it is falsy. *)
Theorem decision_is_truthiness (env : Env) (event : Event) (d : string)
    (v : JsValue) (s : option JsValue) :
  verification_settles env event (Resolved d) ->
  JSON_parse (Some d) = Some v ->
  get_success v = Some s ->
  callbacks_of (fst (handler env event)) =
    [if ToBoolean s then CbResult (allow_response (methodArn event))
     else CbError "Unauthorized"]
  /\ snd (handler env event) = Ret tt.
Proof.
  intros Hs Hp Hg.
  destruct (verified_observed env event _ Hs) as (_ & _ & H).
  rewrite Hp, Hg in H. exact H.
Qed.

Lemma decision_is_truthiness_witness :
  callbacks_of (fst (handler (answering (success_payload "0.7")) sample_event)) =
    [CbResult (allow_response (methodArn sample_event))]
  /\ snd (handler (answering (success_payload "0.7")) sample_event) = Ret tt.
Proof.
  apply (decision_is_truthiness (answering (success_payload "0.7")) sample_event
           (success_payload "0.7") (JObject [("success", JNumber 7 (-1))])
           (Some (JNumber 7 (-1))));
    [apply answering_settles | reflexivity | reflexivity].
Defined.

(** X13. A payload that is valid JSON but carries no [success] at all, an
    object without that member, or an array, a string, a number or a boolean
    (even [true]), is answered with ['Unauthorized'], as a failed verification
    is. *)
Theorem no_success_member_denied (env : Env) (event : Event) (d : string) (v : JsValue) :
  verification_settles env event (Resolved d) ->
  JSON_parse (Some d) = Some v ->
  match v with
  | JNull => False
  | JObject members => get_own "success" members = None
  | JBool _ | JNumber _ _ | JString _ | JArray _ => True
  end ->
  callbacks_of (fst (handler env event)) = [CbError "Unauthorized"]
  /\ snd (handler env event) = Ret tt.
Proof.
  intros Hs Hp Hv.
  destruct (verified_observed env event _ Hs) as (_ & _ & H).
  rewrite Hp in H.
  destruct v as [| b | m e | str | elems | members]; simpl in H;
    try contradiction; try exact H.
  rewrite Hv in H. exact H.
Qed.

Lemma no_success_member_denied_witness :
  JSON_parse (Some "true") = Some (JBool true) /\
  callbacks_of (fst (handler (answering "true") sample_event)) = [CbError "Unauthorized"]
  /\ snd (handler (answering "true") sample_event) = Ret tt.
Proof.
  split; [reflexivity |].
  apply (no_success_member_denied (answering "true") sample_event "true" (JBool true));
    [apply answering_settles | reflexivity | exact I].
Defined.

(** X14. A payload that is the JSON text [null] is not answered at all:
    reading [.success] of [null] throws a [TypeError], the handler's promise
    rejects and [callback] is never called. *)
Theorem null_payload_rejects (env : Env) (event : Event) (d : string) :
  verification_settles env event (Resolved d) ->
  JSON_parse (Some d) = Some JNull ->
  callbacks_of (fst (handler env event)) = [] /\
  snd (handler env event) = Throw TypeError.
Proof.
  intros Hs Hp.
  destruct (verified_observed env event _ Hs) as (_ & _ & H).
  rewrite Hp in H. exact H.
Qed.

Lemma null_payload_rejects_witness :
  JSON_parse (Some " null ") = Some JNull /\
  callbacks_of (fst (handler (answering " null ") sample_event)) = [] /\
  snd (handler (answering " null ") sample_event) = Throw TypeError.
Proof.
  split; [reflexivity |].
  apply (null_payload_rejects (answering " null ") sample_event " null ");
    [apply answering_settles | reflexivity].
Defined.

(** X15. When a payload writes [success] more than once, the last one
    decides: an object that ends with a boolean [success] member is answered
    by that boolean, whatever members stand before it. *)
Theorem last_success_wins (env : Env) (event : Event) (d : string)
    (members : list (string * JsValue)) (b : bool) :
  verification_settles env event (Resolved d) ->
  JSON_parse (Some d) = Some (JObject (members ++ [("success", JBool b)])) ->
  callbacks_of (fst (handler env event)) =
    [if b then CbResult (allow_response (methodArn event)) else CbError "Unauthorized"].
Proof.
  intros Hs Hp.
  destruct (verified_observed env event _ Hs) as (_ & _ & H).
  rewrite Hp in H. simpl get_success in H. rewrite get_own_last in H.
  apply H.
Qed.

Lemma last_success_wins_witness :
  JSON_parse (Some ("{" ++ dq ++ "success" ++ dq ++ ":true," ++ dq ++ "success" ++ dq ++ ":false}")) =
    Some (JObject ([("success", JBool true)] ++ [("success", JBool false)])) /\
  callbacks_of (fst (handler
    (answering ("{" ++ dq ++ "success" ++ dq ++ ":true," ++ dq ++ "success" ++ dq ++ ":false}"))
    sample_event)) = [CbError "Unauthorized"].
Proof.
  split; [reflexivity |].
  apply (last_success_wins
           (answering ("{" ++ dq ++ "success" ++ dq ++ ":true," ++ dq ++ "success" ++ dq ++ ":false}"))
           sample_event
           ("{" ++ dq ++ "success" ++ dq ++ ":true," ++ dq ++ "success" ++ dq ++ ":false}")
           [("success", JBool true)] false);
    [apply answering_settles | reflexivity].
Defined.

Lemma integer_truthy (m e : Z) : (0 <= e)%Z -> ToBoolean (Some (JNumber m e)) = negb (m =? 0)%Z.
Proof.
  intros He. simpl. unfold rounds_to_zero.
  destruct (Z.ltb_spec e 0) as [Hlt | _]; [lia |].
  rewrite Bool.andb_false_l, Bool.orb_false_r. reflexivity.
Qed.

(** X16. A numeric [success] is not compared with any threshold: a payload
    whose [success] is a number [m * 10^e] with [e >= 0] results in Allow
    for every [m] other than zero, negative ones included, and in
    ['Unauthorized'] for zero. *)
Theorem numeric_success_not_thresholded (env : Env) (event : Event) (d : string)
    (v : JsValue) (m e : Z) :
  verification_settles env event (Resolved d) ->
  JSON_parse (Some d) = Some v ->
  get_success v = Some (Some (JNumber m e)) ->
  (0 <= e)%Z ->
  callbacks_of (fst (handler env event)) =
    [if (m =? 0)%Z then CbError "Unauthorized"
     else CbResult (allow_response (methodArn event))].
Proof.
  intros Hs Hp Hg He.
  destruct (verified_observed env event _ Hs) as (_ & _ & H).
  rewrite Hp, Hg, (integer_truthy m e He) in H.
  destruct (m =? 0)%Z; apply H.
Qed.

Lemma numeric_success_not_thresholded_witness :
  JSON_parse (Some (success_payload "-1")) = Some (JObject [("success", JNumber (-1) 0)]) /\
  callbacks_of (fst (handler (answering (success_payload "-1")) sample_event)) =
    [CbResult (allow_response (methodArn sample_event))].
Proof.
  split; [reflexivity |].
  apply (numeric_success_not_thresholded (answering (success_payload "-1")) sample_event
           (success_payload "-1") (JObject [("success", JNumber (-1) 0)]) (-1) 0);
    [apply answering_settles | reflexivity | reflexivity | lia].
Defined.

(** ** The console *)

Lemma listen_status_source (events : list NetEvent) :
  forall listening l,
    In l (logs_of (fst (listen listening events))) ->
    exists statusCode,
      In (NetResponse statusCode) events /\ l = "statusCode: " ++ string_of_N statusCode.
Proof.
  induction events as [| ev rest IH]; intros listening l Hin; simpl in Hin.
  - contradiction.
  - destruct ev as [sc | d | error]; simpl in Hin.
    + specialize (IH true l). destruct (listen true rest) as [t r]; simpl in *.
      destruct Hin as [<- | Hin].
      * exists sc. split; [left; reflexivity | reflexivity].
      * destruct (IH Hin) as (sc' & Hsc & ->). exists sc'. split; [right; exact Hsc | reflexivity].
    + destruct listening; simpl in Hin; [contradiction |].
      destruct (IH false l Hin) as (sc' & Hsc & ->).
      exists sc'. split; [right; exact Hsc | reflexivity].
    + contradiction.
Qed.

Lemma listen_rejected_source (events : list NetEvent) :
  forall listening e,
    snd (listen listening events) = Ret (Rejected e) -> In (NetError e) events.
Proof.
  induction events as [| ev rest IH]; intros listening e Hr; simpl in Hr.
  - discriminate.
  - destruct ev as [sc | d | error]; simpl in Hr.
    + specialize (IH true e). destruct (listen true rest) as [t r]; simpl in *.
      right. apply IH. exact Hr.
    + destruct listening; simpl in Hr; [discriminate |]. right. apply (IH false). exact Hr.
    + injection Hr as <-. left. reflexivity.
Qed.

(** The one request of an invocation that reached the verification call. *)
Lemma verified_request (env : Env) (event : Event) (st : Settled) (token : string)
    (d1 d2 : GetParameterResult) (p1 p2 : SsmParameter) :
  authorizationToken event = Some token -> token <> "" ->
  getParameter env "/google/captcha_secret_key" = SsmData d1 ->
  data_Parameter d1 = Some p1 ->
  getParameter env "/google/google_captch_verification_url" = SsmData d2 ->
  data_Parameter d2 = Some p2 ->
  snd (verifyCaptcha env (Value p1) (Value p2) token) = Ret st ->
  requests_of (fst (handler env event)) = [request_for (Value p1) (Value p2) token].
Proof.
  intros Htok Hne H1 Hp1 H2 Hp2 Hv.
  rewrite (handler_verified env event st token d1 d2 p1 p2 Htok Hne H1 Hp1 H2 Hp2 Hv).
  pose proof (verifyCaptcha_requests env (Value p1) (Value p2) token) as Hr.
  set (tv := fst (verifyCaptcha env (Value p1) (Value p2) token)) in *.
  assert (Hreq : forall u, requests_of u = [] ->
            requests_of ((lookups_made ++ tv) ++ u) =
              [request_for (Value p1) (Value p2) token]).
  { intros u Hu. rewrite !requests_of_app, Hr, Hu. reflexivity. }
  pose proof (Hreq [] eq_refl) as Hreq0. rewrite app_nil_r in Hreq0.
  destruct st as [d | e |].
  - destruct (JSON_parse (Some d)) as [v |]; [| exact Hreq0].
    destruct (get_success v) as [s |]; [| exact Hreq0].
    apply Hreq. reflexivity.
  - apply Hreq. reflexivity.
  - exact Hreq0.
Qed.

(** X17. Every line the handler writes to the console comes from the https
    layer's answer to the one request it made: it is [statusCode: n] for the
    status code [n] of a response delivered for that request, or [error e]
    for an error [e] raised on it. Nothing is written before the request, and
    no line is made from the token, the stored values or a chunk of the
    body. *)
Theorem console_lines (env : Env) (event : Event) (l : string) :
  In l (logs_of (fst (handler env event))) ->
  exists options,
    requests_of (fst (handler env event)) = [options] /\
    ((exists statusCode,
        In (NetResponse statusCode) (https_request env options) /\
        l = "statusCode: " ++ string_of_N statusCode)
     \/ (exists e,
           In (NetError e) (https_request env options) /\ l = "error " ++ e)).
Proof.
  intros Hin.
  destruct (handler_cases env event) as [[_ Hh] | [(_ & t & o & Hh & Ht & _) | [st Hs]]].
  - rewrite Hh in Hin. contradiction.
  - rewrite Hh in Hin. destruct Ht as [-> | ->]; contradiction.
  - destruct Hs as (token & d1 & d2 & p1 & p2 & Htok & Hne & H1 & Hp1 & H2 & Hp2 & Hv).
    exists (request_for (Value p1) (Value p2) token).
    split; [exact (verified_request env event st token d1 d2 p1 p2
                     Htok Hne H1 Hp1 H2 Hp2 Hv) |].
    rewrite (handler_verified env event st token d1 d2 p1 p2 Htok Hne H1 Hp1 H2 Hp2 Hv) in Hin.
    rewrite verifyCaptcha_trace in Hin. rewrite verifyCaptcha_settles in Hv.
    set (events := https_request env (request_for (Value p1) (Value p2) token)) in *.
    assert (Hstatus : forall u,
              In l (logs_of ((lookups_made ++ HttpsRequest (request_for (Value p1) (Value p2) token)
                                :: fst (listen false events)) ++ u)%list) ->
              In l (logs_of u) \/
              exists statusCode,
                In (NetResponse statusCode) events /\
                l = "statusCode: " ++ string_of_N statusCode).
    { intros u Hu. rewrite !logs_of_app in Hu. simpl in Hu.
      apply in_app_or in Hu. destruct Hu as [Hu | Hu]; [right | left; exact Hu].
      apply (listen_status_source events false l Hu). }
    assert (Hplain :
              In l (logs_of (lookups_made ++ HttpsRequest (request_for (Value p1) (Value p2) token)
                               :: fst (listen false events))%list) ->
              exists statusCode,
                In (NetResponse statusCode) events /\
                l = "statusCode: " ++ string_of_N statusCode).
    { intros Hu. destruct (Hstatus []) as [[] | H]; [rewrite app_nil_r; exact Hu | exact H]. }
    destruct st as [d | e |].
    + destruct (JSON_parse (Some d)) as [v |]; [| left; apply Hplain; exact Hin].
      destruct (get_success v) as [s |]; [| left; apply Hplain; exact Hin].
      cbn [fst] in Hin. destruct (Hstatus _ Hin) as [[] | H]. left. exact H.
    + cbn [fst] in Hin. destruct (Hstatus _ Hin) as [[<- | []] | H]; [right | left; exact H].
      exists e. split; [apply (listen_rejected_source events false e Hv) | reflexivity].
    + left. apply Hplain. exact Hin.
Qed.

Lemma console_lines_witness :
  In "statusCode: 200"
    (logs_of (fst (handler (answering (success_payload "false")) sample_event))) /\
  exists options,
    requests_of (fst (handler (answering (success_payload "false")) sample_event)) = [options] /\
    ((exists statusCode,
        In (NetResponse statusCode)
          (https_request (answering (success_payload "false")) options) /\
        "statusCode: 200" = "statusCode: " ++ string_of_N statusCode)
     \/ (exists e,
           In (NetError e) (https_request (answering (success_payload "false")) options) /\
           "statusCode: 200" = "error " ++ e)).
Proof.
  split; [left; reflexivity |].
  apply (console_lines (answering (success_payload "false")) sample_event "statusCode: 200").
  left; reflexivity.
Defined.

(** ** Faults of the verification service, as the handler meets them *)

(** X18. When the request to the verification service fails at the transport
    level, or its first chunk is not valid JSON, the handler answers nobody:
    [JSON.parse] throws a [SyntaxError], the handler's promise rejects with
    it and [callback] is never called, neither with a response nor with
    ['Unauthorized']. A transport failure is first written to the console as
    [error e]. *)
Theorem verification_fault_rejects (env : Env) (event : Event) (st : Settled) :
  verification_settles env event st ->
  match st with
  | Resolved d => JSON_parse (Some d) = None
  | Rejected _ => True
  | Unsettled => False
  end ->
  callbacks_of (fst (handler env event)) = [] /\
  snd (handler env event) = Throw SyntaxError /\
  (forall e, st = Rejected e -> In ("error " ++ e) (logs_of (fst (handler env event)))).
Proof.
  intros Hs Hbad.
  destruct (verified_observed env event _ Hs) as (_ & _ & H).
  destruct st as [d | e |].
  - rewrite Hbad in H. destruct H as [Hc Hr]. repeat split; try assumption. discriminate.
  - destruct H as (Hc & Hr & Hl). repeat split; try assumption.
    intros e' [= <-]. exact Hl.
  - contradiction.
Qed.

Lemma verification_fault_rejects_witness :
  JSON_parse (Some "<html>") = None /\
  callbacks_of (fst (handler (answering "<html>") sample_event)) = [] /\
  snd (handler (answering "<html>") sample_event) = Throw SyntaxError /\
  snd (handler (failing "Error: socket hang up") sample_event) = Throw SyntaxError /\
  In "error Error: socket hang up"
    (logs_of (fst (handler (failing "Error: socket hang up") sample_event))).
Proof.
  split; [reflexivity |].
  assert (H1 := verification_fault_rejects (answering "<html>") sample_event
                  (Resolved "<html>") (answering_settles "<html>") eq_refl).
  assert (H2 := verification_fault_rejects (failing "Error: socket hang up") sample_event
                  (Rejected "Error: socket hang up")
                  (failing_settles "Error: socket hang up") I).
  destruct H1 as (Hc1 & Hr1 & _). destruct H2 as (_ & Hr2 & Hl2).
  repeat split; try assumption. apply (Hl2 "Error: socket hang up"). reflexivity.
Defined.
